(** * Aegisub: the subtitle selection controller (selection_controller.h)

    A shallow embedding of [SubtitleSelectionController], its listener
    interface, [BaseSubtitleSelectionController] and
    [DummySubtitleSelectionController], with the properties of the
    notification mechanism.

    Conventions of the embedding:
    - a pointer ([AssDialogue *], [SubtitleSelectionListener *]) is its
      address, a number of type [N]; the null pointer is address 0;
    - [std::vector<AssDialogue *>] is a [list] of addresses;
    - [std::set<SubtitleSelectionListener *>] is a [gset] of addresses,
      iterated in ascending order of address as [std::set] does;
    - a [void] method is a function from the object before the call to the
      object after it and the list of listener callbacks it made, in the
      order it made them;
    - a virtual call [listener->OnActiveLineChanged(x)] is recorded as the
      event [(listener, OnActiveLineChanged x)]: the listener's body is
      outside this header.  A registered pointer is taken to point to a
      live listener, and a listener is taken not to call back into the
      controller that notifies it. *)

From stdpp Require Import gmap list sorting.

(** ** Data *)

(** [AssDialogue *]. *)
Abbreviation AssDialoguePtr := N (only parsing).

(** [SubtitleSelectionListener *]. *)
Abbreviation ListenerPtr := N (only parsing).

(** The null pointer, the [0] that [GetActiveLine] of the dummy returns. *)
Definition NULL : AssDialoguePtr := 0%N.

(** [typedef std::vector<AssDialogue *> SubtitleSelection;] *)
Abbreviation SubtitleSelection := (list N) (only parsing).

(** The two pure virtual methods of [SubtitleSelectionListener], with the
    argument of the call. *)
Inductive Callback : Type :=
  | OnActiveLineChanged (new_line : AssDialoguePtr)
  | OnSelectedSetChanged (new_selection : SubtitleSelection).

#[global] Instance Callback_eq_dec : EqDecision Callback.
Proof. solve_decision. Defined.

(** One virtual call on one listener. *)
Abbreviation Event := (N * Callback)%type (only parsing).

(** The calls a method made, oldest first. *)
Abbreviation Trace := (list (N * Callback)) (only parsing).

(** The callbacks listener [l] received in [tr], oldest first. *)
Definition received (l : ListenerPtr) (tr : Trace) : list Callback :=
  snd <$> filter (λ e : Event, e.1 = l) tr.

(** Running [g] after [f] on the same object: the calls of [f] come first. *)
Definition and_then {C : Type} (f g : C → C * Trace) (this : C) : C * Trace :=
  let '(this1, tr1) := f this in
  let '(this2, tr2) := g this1 in
  (this2, tr1 ++ tr2).

Infix ">>>" := and_then (at level 61, left associativity).

(** ** The interface [SubtitleSelectionController] *)

(** The eight pure virtual methods.  [GetSelectedSet] has an out-parameter
    [SubtitleSelection &selection]: it maps the container as the caller
    passed it to the container on return. *)
Class SubtitleSelectionController (C : Type) : Type := {
  SetActiveLine : AssDialoguePtr → C → C * Trace;
  GetActiveLine : C → AssDialoguePtr;
  SetSelectedSet : SubtitleSelection → C → C * Trace;
  GetSelectedSet : C → SubtitleSelection → SubtitleSelection;
  NextLine : C → C * Trace;
  PrevLine : C → C * Trace;
  AddSelectionListener : ListenerPtr → C → C * Trace;
  RemoveSelectionListener : ListenerPtr → C → C * Trace
}.

(** A call of one of the [void] methods of the interface. *)
Inductive Op : Type :=
  | OpSetActiveLine (new_line : AssDialoguePtr)
  | OpSetSelectedSet (new_selection : SubtitleSelection)
  | OpNextLine
  | OpPrevLine
  | OpAddSelectionListener (listener : ListenerPtr)
  | OpRemoveSelectionListener (listener : ListenerPtr).

Definition step `{SubtitleSelectionController C} (o : Op) : C → C * Trace :=
  match o with
  | OpSetActiveLine new_line => SetActiveLine new_line
  | OpSetSelectedSet new_selection => SetSelectedSet new_selection
  | OpNextLine => NextLine
  | OpPrevLine => PrevLine
  | OpAddSelectionListener listener => AddSelectionListener listener
  | OpRemoveSelectionListener listener => RemoveSelectionListener listener
  end.

(** A sequence of calls on one controller, first call first. *)
Fixpoint run `{SubtitleSelectionController C} (ops : list Op) : C → C * Trace :=
  match ops with
  | [] => λ this, (this, [])
  | o :: ops' => step o >>> run ops'
  end.

(** ** [BaseSubtitleSelectionController] *)

Module Base.

(** The one data member, [std::set<SubtitleSelectionListener *> listeners]. *)
Record t : Type := mk { listeners : gset N }.

(** [for (it = listeners.begin(); it != listeners.end(); ++it)]: the
    elements of the set in ascending order. *)
Definition iterate (s : gset N) : list ListenerPtr :=
  merge_sort N.le (elements s).

(** Call [OnActiveLineChanged] on all listeners. *)
Definition AnnounceActiveLineChanged (new_line : AssDialoguePtr) (this : t)
  : t * Trace :=
  (this, (λ listener, (listener, OnActiveLineChanged new_line))
           <$> iterate (listeners this)).

(** Call [OnSelectedSetChanged] on all listeners. *)
Definition AnnounceSelectedSetChanged (new_selection : SubtitleSelection)
    (this : t) : t * Trace :=
  (this, (λ listener, (listener, OnSelectedSetChanged new_selection))
           <$> iterate (listeners this)).

(** [listeners.insert(listener);] *)
Definition AddSelectionListener (listener : ListenerPtr) (this : t)
  : t * Trace :=
  (mk ({[listener]} ∪ listeners this), []).

(** [listeners.erase(listener);] *)
Definition RemoveSelectionListener (listener : ListenerPtr) (this : t)
  : t * Trace :=
  (mk (listeners this ∖ {[listener]}), []).

(** A call of one of the four member functions the class defines.  The
    set [listeners] is private, so a derived class reaches it through
    these four only. *)
Inductive Call : Type :=
  | CallAnnounceActiveLineChanged (new_line : AssDialoguePtr)
  | CallAnnounceSelectedSetChanged (new_selection : SubtitleSelection)
  | CallAddSelectionListener (listener : ListenerPtr)
  | CallRemoveSelectionListener (listener : ListenerPtr).

Definition call (c : Call) : t → t * Trace :=
  match c with
  | CallAnnounceActiveLineChanged new_line =>
      AnnounceActiveLineChanged new_line
  | CallAnnounceSelectedSetChanged new_selection =>
      AnnounceSelectedSetChanged new_selection
  | CallAddSelectionListener listener => AddSelectionListener listener
  | CallRemoveSelectionListener listener => RemoveSelectionListener listener
  end.

Fixpoint calls (cs : list Call) : t → t * Trace :=
  match cs with
  | [] => λ this, (this, [])
  | c :: cs' => call c >>> calls cs'
  end.

(** The callback a call announces, if the call is one of the two
    announcements. *)
Definition announcement (c : Call) : option Callback :=
  match c with
  | CallAnnounceActiveLineChanged new_line =>
      Some (OnActiveLineChanged new_line)
  | CallAnnounceSelectedSetChanged new_selection =>
      Some (OnSelectedSetChanged new_selection)
  | CallAddSelectionListener _ | CallRemoveSelectionListener _ => None
  end.

End Base.

(** ** [DummySubtitleSelectionController] *)

Module Dummy.

(** The class has no data member. *)
Record t : Type := mk { }.

(** [virtual void SetActiveLine(AssDialogue *new_line) { }] *)
Definition SetActiveLine (new_line : AssDialoguePtr) (this : t) : t * Trace :=
  (this, []).

(** [virtual AssDialogue * GetActiveLine() const { return 0; }] *)
Definition GetActiveLine (this : t) : AssDialoguePtr := 0%N.

(** [virtual void SetSelectedSet(const SubtitleSelection &new_selection) { }] *)
Definition SetSelectedSet (new_selection : SubtitleSelection) (this : t)
  : t * Trace := (this, []).

(** [virtual void GetSelectedSet(SubtitleSelection &selection) const { }]:
    the container is not written to. *)
Definition GetSelectedSet (this : t) (selection : SubtitleSelection)
  : SubtitleSelection := selection.

(** [virtual void NextLine() { }] *)
Definition NextLine (this : t) : t * Trace := (this, []).

(** [virtual void PrevLine() { }] *)
Definition PrevLine (this : t) : t * Trace := (this, []).

(** [virtual void AddSelectionListener(SubtitleSelectionListener *listener) { }] *)
Definition AddSelectionListener (listener : ListenerPtr) (this : t)
  : t * Trace := (this, []).

(** [virtual void RemoveSelectionListener(SubtitleSelectionListener *listener) { }] *)
Definition RemoveSelectionListener (listener : ListenerPtr) (this : t)
  : t * Trace := (this, []).

#[global] Instance controller : SubtitleSelectionController t :=
  Build_SubtitleSelectionController t
    SetActiveLine GetActiveLine SetSelectedSet GetSelectedSet
    NextLine PrevLine AddSelectionListener RemoveSelectionListener.

End Dummy.

(** ** A controller derived from the base class

    The header declares the state-changing methods pure virtual and defines
    them only for the dummy.  The controller below is the one the
    documentation of the interface describes: a class derived from
    [BaseSubtitleSelectionController] that stores the active line and the
    selected set and announces changes through the two protected functions
    of the base class. *)

Module Derived.

(** Modelled from the spec: the storage of a controller derived from the
    base class, which the header does not contain: the active line (zero
    or one line reference, [NULL] for none) and the selected set (a set
    of line references, unordered, unique by identity), next to the
    inherited listener set. *)
Record t : Type := mk {
  base : Base.t;
  active_line : AssDialoguePtr;
  selected : gset N
}.

(** A member function of the base class, called on the derived object. *)
Definition inherited (f : Base.t → Base.t * Trace) (this : t) : t * Trace :=
  let '(b, tr) := f (base this) in
  (mk b (active_line this) (selected this), tr).

Definition AddSelectionListener (listener : ListenerPtr) : t → t * Trace :=
  inherited (Base.AddSelectionListener listener).

Definition RemoveSelectionListener (listener : ListenerPtr) : t → t * Trace :=
  inherited (Base.RemoveSelectionListener listener).

Definition AnnounceActiveLineChanged (new_line : AssDialoguePtr)
  : t → t * Trace :=
  inherited (Base.AnnounceActiveLineChanged new_line).

Definition AnnounceSelectedSetChanged (new_selection : SubtitleSelection)
  : t → t * Trace :=
  inherited (Base.AnnounceSelectedSetChanged new_selection).

(** Modelled from the spec: [GetActiveLine] of a controller that stores
    the active line (absent from the header): returns the current active
    line or none; pure read. *)
Definition GetActiveLine (this : t) : AssDialoguePtr := active_line this.

(** Modelled from the spec: [GetSelectedSet] of a controller that stores
    the selected set (absent from the header): the out-parameter is
    filled with a copy of the current selected set. *)
Definition GetSelectedSet (this : t) (selection : SubtitleSelection)
  : SubtitleSelection := elements (selected this).

(** Modelled from the spec: [SetActiveLine] of a controller that stores
    the active line (absent from the header): a no-op without
    notification if the new value equals the current one, both being
    none included; otherwise it replaces the active line and notifies
    all registered listeners with the new value. *)
Definition SetActiveLine (new_line : AssDialoguePtr) (this : t) : t * Trace :=
  if decide (new_line = active_line this) then (this, [])
  else AnnounceActiveLineChanged new_line
         (mk (base this) new_line (selected this)).

(** Modelled from the spec: navigation to a neighbour (absent from the
    header): with no neighbour the state is unchanged and nothing fires;
    otherwise the active line becomes the neighbour, the selected set is
    reset to the neighbour alone, and both notifications fire. *)
Definition move_to (neighbour : option AssDialoguePtr) (this : t)
  : t * Trace :=
  match neighbour with
  | None => (this, [])
  | Some line =>
      (AnnounceActiveLineChanged line >>> AnnounceSelectedSetChanged [line])
        (mk (base this) line {[line]})
  end.

Section Document.

(** What the document model and the concrete class decide: whether a
    change of the selected set is accepted (the conditions of a refusal
    are implementation-defined), and the logical next and previous
    line of a line, if any (the ordering is the document's). *)
Variable accepts : t → SubtitleSelection → bool.
Variables next_line prev_line : AssDialoguePtr → option AssDialoguePtr.

(** Modelled from the spec: [SetSelectedSet] of a controller that
    stores the selected set (absent from the header): the whole set is
    replaced or nothing is; a refused change keeps the prior state and
    sends nothing; an accepted change whose content differs from
    before notifies the listeners with the new set. *)
Definition SetSelectedSet (new_selection : SubtitleSelection) (this : t)
  : t * Trace :=
  if accepts this new_selection then
    if decide (list_to_set new_selection = selected this) then (this, [])
    else AnnounceSelectedSetChanged new_selection
           (mk (base this) (active_line this) (list_to_set new_selection))
  else (this, []).

(** Modelled from the spec: [NextLine] (absent from the header) moves
    to the logical next line of the active line. *)
Definition NextLine (this : t) : t * Trace :=
  move_to (next_line (active_line this)) this.

(** Modelled from the spec: [PrevLine] (absent from the header) moves
    to the logical previous line of the active line. *)
Definition PrevLine (this : t) : t * Trace :=
  move_to (prev_line (active_line this)) this.

Definition controller : SubtitleSelectionController t :=
  Build_SubtitleSelectionController t
    SetActiveLine GetActiveLine SetSelectedSet GetSelectedSet
    NextLine PrevLine AddSelectionListener RemoveSelectionListener.

End Document.

End Derived.

(** ** Traces *)

Section Traces.

Implicit Types (l : ListenerPtr) (tr : Trace) (cb : Callback).

Lemma received_nil l : received l [] = [].
Proof. reflexivity. Qed.

Lemma received_app l tr1 tr2 :
  received l (tr1 ++ tr2) = received l tr1 ++ received l tr2.
Proof. unfold received. by rewrite filter_app, fmap_app. Qed.

(** One call of [cb] on each listener of a list without repetition: a
    listener of the list receives [cb] once, any other nothing. *)
Lemma received_fanout l cb (ls : list ListenerPtr) :
  NoDup ls →
  received l ((λ l', (l', cb)) <$> ls) = if decide (l ∈ ls) then [cb] else [].
Proof.
  unfold received. induction 1 as [|l0 ls Hl0 Hnd IH]; [done|].
  rewrite fmap_cons, filter_cons. cbn [fst].
  destruct (decide (l0 = l)) as [->|Hne].
  - rewrite decide_True by left. rewrite fmap_cons, IH.
    by rewrite decide_False.
  - rewrite IH. apply decide_ext. rewrite elem_of_cons. naive_solver.
Qed.

Lemma and_then_trace {C} (f g : C → C * Trace) (this : C) :
  (and_then f g this).2 = (f this).2 ++ (g (f this).1).2.
Proof. unfold and_then. by destruct (f this), (g _). Qed.

Lemma and_then_state {C} (f g : C → C * Trace) (this : C) :
  (and_then f g this).1 = (g (f this).1).1.
Proof. unfold and_then. by destruct (f this), (g _). Qed.

End Traces.

(** ** The base class: iteration over the listener set *)

Section BaseFacts.

Import Base.
Implicit Types (this : Base.t) (l : ListenerPtr).

Lemma iterate_Permutation (s : gset N) : iterate s ≡ₚ elements s.
Proof. apply merge_sort_Permutation. Qed.

Lemma NoDup_iterate (s : gset N) : NoDup (iterate s).
Proof. rewrite iterate_Permutation. apply NoDup_elements. Qed.

Lemma elem_of_iterate (s : gset N) l : l ∈ iterate s ↔ l ∈ s.
Proof. rewrite iterate_Permutation. apply elem_of_elements. Qed.

(** The loop visits the listeners in ascending order of address. *)
Lemma iterate_Sorted (s : gset N) : Sorted N.le (iterate s).
Proof. apply (Sorted_merge_sort N.le). Qed.

Lemma received_iterate l cb (s : gset N) :
  received l ((λ l', (l', cb)) <$> iterate s)
  = if decide (l ∈ s) then [cb] else [].
Proof.
  rewrite received_fanout by apply NoDup_iterate.
  apply decide_ext, elem_of_iterate.
Qed.

Lemma received_AnnounceActiveLineChanged this l x :
  received l (AnnounceActiveLineChanged x this).2
  = if decide (l ∈ listeners this) then [OnActiveLineChanged x] else [].
Proof. apply received_iterate. Qed.

Lemma received_AnnounceSelectedSetChanged this l sel :
  received l (AnnounceSelectedSetChanged sel this).2
  = if decide (l ∈ listeners this) then [OnSelectedSetChanged sel] else [].
Proof. apply received_iterate. Qed.

Lemma t_eq this1 this2 : listeners this1 = listeners this2 → this1 = this2.
Proof. destruct this1, this2; cbn; congruence. Qed.

(** A listener that is not registered, and is not registered by any of
    the calls, receives nothing and stays unregistered. *)
Lemma calls_unregistered (cs : list Call) this l :
  CallAddSelectionListener l ∉ cs →
  l ∉ listeners this →
  received l (calls cs this).2 = [] ∧ l ∉ listeners (calls cs this).1.
Proof.
  revert this. induction cs as [|c cs IH]; intros this Hcs Hl; [done|].
  apply not_elem_of_cons in Hcs as [Hc Hcs]. cbn [calls].
  rewrite and_then_trace, and_then_state, received_app.
  assert (received l (call c this).2 = [] ∧ l ∉ listeners (call c this).1)
    as [-> Hl'].
  { destruct c as [x|sel|l'|l']; cbn [call].
    - by rewrite received_AnnounceActiveLineChanged, decide_False.
    - by rewrite received_AnnounceSelectedSetChanged, decide_False.
    - split; [done|]. cbn. set_solver.
    - split; [done|]. cbn. set_solver. }
  by apply IH.
Qed.

End BaseFacts.

(** ** The dummy controller: every call is inert *)

Section DummyFacts.

Implicit Types (this : Dummy.t) (o : Op) (ops : list Op).

Lemma Dummy_step o this : step o this = (this, []).
Proof. by destruct o. Qed.

Lemma Dummy_run ops this : run ops this = (this, []).
Proof.
  induction ops as [|o ops IH]; [done|].
  cbn [run]. unfold and_then. by rewrite Dummy_step, IH.
Qed.

End DummyFacts.

(** ** The code on concrete inputs *)

(** Three registrations of two listeners, an announcement, a removal and a
    second announcement: the listener at address 5, registered twice, is
    called once per announcement, and the one at address 3 is not called
    after its removal. *)
Example Base_calls_example :
  Base.calls
    [Base.CallAddSelectionListener 5; Base.CallAddSelectionListener 3;
     Base.CallAddSelectionListener 5; Base.CallAnnounceActiveLineChanged 7;
     Base.CallRemoveSelectionListener 3;
     Base.CallAnnounceSelectedSetChanged [7%N; 8%N]]
    (Base.mk ∅)
  = (Base.mk {[5%N]},
     [(3%N, OnActiveLineChanged 7); (5%N, OnActiveLineChanged 7);
      (5%N, OnSelectedSetChanged [7%N; 8%N])]).
Proof. vm_compute. reflexivity. Qed.

(** The dummy controller, with a listener added, makes no call. *)
Example Dummy_run_example :
  run [OpAddSelectionListener 1; OpSetActiveLine 5; OpSetSelectedSet [5%N; 6%N];
       OpNextLine; OpPrevLine; OpRemoveSelectionListener 1] Dummy.mk
  = (Dummy.mk, []).
Proof. reflexivity. Qed.

(** A derived controller over the document with the lines 10, 20, 30 in
    this order, which accepts every selection: setting the active line
    twice notifies once, a selection with the same content in another order
    is silent, and [NextLine] stops at the last line. *)
Example Derived_run_example :
  let next_line (line : AssDialoguePtr) : option AssDialoguePtr :=
    if decide (line = 10%N) then Some 20%N
    else if decide (line = 20%N) then Some 30%N else None in
  let prev_line (line : AssDialoguePtr) : option AssDialoguePtr :=
    if decide (line = 30%N) then Some 20%N
    else if decide (line = 20%N) then Some 10%N else None in
  let after :=
    @run _ (Derived.controller (λ _ _, true) next_line prev_line)
      [OpAddSelectionListener 1; OpSetActiveLine 20; OpSetActiveLine 20;
       OpSetSelectedSet [10%N; 20%N]; OpSetSelectedSet [20%N; 10%N];
       OpNextLine; OpNextLine]
      (Derived.mk (Base.mk ∅) NULL ∅) in
  (Derived.active_line after.1 = 30%N
   ∧ Derived.GetSelectedSet after.1 [] = [30%N]
   ∧ after.2 = [(1%N, OnActiveLineChanged 20);
                (1%N, OnSelectedSetChanged [10%N; 20%N]);
                (1%N, OnActiveLineChanged 30);
                (1%N, OnSelectedSetChanged [30%N])]).
Proof. vm_compute. by split_and!. Qed.

(** ** Properties of the base class *)

(** C9: [AnnounceActiveLineChanged x] (resp. [AnnounceSelectedSetChanged s])
    calls the callback exactly once on each registered listener, with the
    same argument [x] (resp. [s]) for all of them, and on nobody else; it
    compares with no earlier value, so a second announcement of the same
    value notifies again; and it leaves the listener set as it was. *)
Theorem Announce_each_listener_once (this : Base.t)
    (x : AssDialoguePtr) (s : SubtitleSelection) :
  (Base.AnnounceActiveLineChanged x this).1 = this
  ∧ (Base.AnnounceSelectedSetChanged s this).1 = this
  ∧ (∀ l, received l (Base.AnnounceActiveLineChanged x this).2
          = if decide (l ∈ Base.listeners this)
            then [OnActiveLineChanged x] else [])
  ∧ (∀ l, received l (Base.AnnounceSelectedSetChanged s this).2
          = if decide (l ∈ Base.listeners this)
            then [OnSelectedSetChanged s] else [])
  ∧ (∀ l, received l
            ((Base.AnnounceActiveLineChanged x
              >>> Base.AnnounceActiveLineChanged x) this).2
          = if decide (l ∈ Base.listeners this)
            then [OnActiveLineChanged x; OnActiveLineChanged x] else [])
  ∧ (∀ l, received l
            ((Base.AnnounceSelectedSetChanged s
              >>> Base.AnnounceSelectedSetChanged s) this).2
          = if decide (l ∈ Base.listeners this)
            then [OnSelectedSetChanged s; OnSelectedSetChanged s] else []).
Proof.
  split_and!; try done; intros l.
  - apply received_AnnounceActiveLineChanged.
  - apply received_AnnounceSelectedSetChanged.
  - rewrite and_then_trace, received_app.
    change (Base.AnnounceActiveLineChanged x this).1 with this.
    rewrite received_AnnounceActiveLineChanged. by case_decide.
  - rewrite and_then_trace, received_app.
    change (Base.AnnounceSelectedSetChanged s this).1 with this.
    rewrite received_AnnounceSelectedSetChanged. by case_decide.
Qed.

(** C7: [AddSelectionListener] and [RemoveSelectionListener] make no
    callback; doing either twice is the same as doing it once; adding a
    registered listener or removing an absent one leaves the listener set
    as it was; and a listener registered twice receives each announced
    event once. *)
Theorem Add_Remove_idempotent (this : Base.t) (l : ListenerPtr) :
  (Base.AddSelectionListener l this).2 = []
  ∧ (Base.RemoveSelectionListener l this).2 = []
  ∧ (Base.AddSelectionListener l >>> Base.AddSelectionListener l) this
    = Base.AddSelectionListener l this
  ∧ (Base.RemoveSelectionListener l >>> Base.RemoveSelectionListener l) this
    = Base.RemoveSelectionListener l this
  ∧ (l ∈ Base.listeners this → (Base.AddSelectionListener l this).1 = this)
  ∧ (l ∉ Base.listeners this → (Base.RemoveSelectionListener l this).1 = this)
  ∧ (∀ x, received l
            ((Base.AddSelectionListener l >>> Base.AddSelectionListener l
              >>> Base.AnnounceActiveLineChanged x) this).2
          = [OnActiveLineChanged x])
  ∧ (∀ s, received l
            ((Base.AddSelectionListener l >>> Base.AddSelectionListener l
              >>> Base.AnnounceSelectedSetChanged s) this).2
          = [OnSelectedSetChanged s]).
Proof.
  split_and!; try done.
  - unfold and_then, Base.AddSelectionListener; cbn.
    do 2 f_equal. set_solver.
  - unfold and_then, Base.RemoveSelectionListener; cbn.
    do 2 f_equal. set_solver.
  - intros Hl. apply t_eq; cbn. set_solver.
  - intros Hl. apply t_eq; cbn. set_solver.
  - intros x. rewrite and_then_trace, and_then_state.
    rewrite received_app, received_AnnounceActiveLineChanged.
    rewrite decide_True by (cbn; set_solver). done.
  - intros s. rewrite and_then_trace, and_then_state.
    rewrite received_app, received_AnnounceSelectedSetChanged.
    rewrite decide_True by (cbn; set_solver). done.
Qed.

(** C6: after [RemoveSelectionListener l] on the base class, whatever
    member functions of the base class are called next, as long as none of
    them is [AddSelectionListener l], listener [l] receives no callback;
    and on the dummy controller [l] receives no callback from any sequence
    of calls of the interface. *)
Theorem removed_listener_receives_nothing
    (this : Base.t) (l : ListenerPtr) (cs : list Base.Call) :
  Base.CallAddSelectionListener l ∉ cs →
  received l ((Base.RemoveSelectionListener l >>> Base.calls cs) this).2 = []
  ∧ ∀ (ops : list Op) (dummy : Dummy.t),
      received l ((RemoveSelectionListener l >>> run ops) dummy).2 = [].
Proof.
  intros Hcs. split.
  - rewrite and_then_trace, received_app. cbn [snd fst].
    apply calls_unregistered; [done|]. cbn. set_solver.
  - intros ops dummy. rewrite and_then_trace, Dummy_run. done.
Qed.

Lemma removed_listener_receives_nothing_witness :
  let this := Base.mk {[1%N; 2%N]} in
  let cs := [Base.CallAnnounceActiveLineChanged 7; Base.CallAddSelectionListener 3;
             Base.CallAnnounceSelectedSetChanged [7%N; 8%N];
             Base.CallRemoveSelectionListener 2] in
  ((Base.CallAddSelectionListener 1 ∉ cs)
   ∧ received 1 ((Base.RemoveSelectionListener 1 >>> Base.calls cs) this).2
     = []
   ∧ ∀ (ops : list Op) (dummy : Dummy.t),
       received 1 ((RemoveSelectionListener 1 >>> run ops) dummy).2 = []).
Proof.
  assert (Base.CallAddSelectionListener 1
          ∉ [Base.CallAnnounceActiveLineChanged 7; Base.CallAddSelectionListener 3;
             Base.CallAnnounceSelectedSetChanged [7%N; 8%N];
             Base.CallRemoveSelectionListener 2]) as Hcs.
  { rewrite !not_elem_of_cons. split_and!; [done..|apply not_elem_of_nil]. }
  exact (conj Hcs (removed_listener_receives_nothing _ 1%N _ Hcs)).
Defined.

(** ** Properties of the dummy controller *)

(** X10: on the dummy controller, after any sequence of calls of the
    interface, no listener has been notified (calls of
    [AddSelectionListener] included), the controller is the one before,
    every single call returns the controller it was given, and
    [GetActiveLine] returns the null pointer. *)
Theorem Dummy_does_nothing (ops : list Op) (this : Dummy.t) :
  (run ops this).2 = []
  ∧ (run ops this).1 = this
  ∧ (∀ o, step o this = (this, []))
  ∧ GetActiveLine (run ops this).1 = NULL.
Proof.
  rewrite Dummy_run. split_and!; try done. intros o. apply Dummy_step.
Qed.

(** C4: the code at the input where it departs from the claim.
    [GetSelectedSet] of the dummy, called after a listener was added and a
    selection was set, with a container that holds the line at address 5,
    returns that container and not the empty set: the empty body does not
    clear the out-parameter, which the interface documents as filled with
    the selected set on return. *)
Lemma Dummy_GetSelectedSet_not_empty :
  GetSelectedSet
    (run [OpAddSelectionListener 1; OpSetSelectedSet [7%N]] Dummy.mk).1 [5%N]
  = [5%N]
  ∧ [5%N] ≠ [].
Proof. split; [reflexivity | discriminate]. Qed.

(** C5, as the code has it: on the dummy controller [GetActiveLine] after
    [SetActiveLine x] returns the null pointer whatever [x] is, so it
    returns [x] exactly when [x] is the null pointer. *)
Theorem Dummy_SetActiveLine_GetActiveLine (this : Dummy.t) (x : AssDialoguePtr) :
  GetActiveLine (SetActiveLine x this).1 = NULL
  ∧ (GetActiveLine (SetActiveLine x this).1 = x ↔ x = NULL).
Proof. split; [reflexivity | split; intros H; [by rewrite <- H | by subst x]]. Qed.

(** C5 as stated fails on the dummy controller: after [SetActiveLine] of
    the line at address 5, [GetActiveLine] returns the null pointer. *)
Lemma Dummy_SetActiveLine_lost :
  GetActiveLine (SetActiveLine 5%N Dummy.mk).1 = NULL ∧ NULL ≠ 5%N.
Proof. split; [reflexivity | discriminate]. Qed.

(** C10: [GetSelectedSet] of the dummy controller leaves the caller's
    container exactly as it was passed in: it neither clears nor fills it,
    so a caller who passes a non-empty container does not get the empty
    set. *)
Theorem Dummy_GetSelectedSet_keeps_container
    (this : Dummy.t) (c : SubtitleSelection) :
  GetSelectedSet this c = c ∧ (c ≠ [] → GetSelectedSet this c ≠ []).
Proof. split; [reflexivity | intros Hc; exact Hc]. Qed.

(** ** Properties of a controller derived from the base class *)

Section DerivedFacts.

Import Derived.
Implicit Types (this : Derived.t) (l : ListenerPtr).

Lemma inherited_trace (f : Base.t → Base.t * list (N * Callback)) this :
  (inherited f this).2 = (f (base this)).2.
Proof. unfold inherited. by destruct (f _). Qed.

Lemma inherited_state (f : Base.t → Base.t * list (N * Callback)) this :
  (inherited f this).1
  = Derived.mk (f (base this)).1 (active_line this) (selected this).
Proof. unfold inherited. by destruct (f _). Qed.

Lemma Derived_AnnounceActiveLineChanged_state this x :
  (Derived.AnnounceActiveLineChanged x this).1 = this.
Proof.
  unfold Derived.AnnounceActiveLineChanged.
  rewrite inherited_state. by destruct this.
Qed.

Lemma Derived_AnnounceSelectedSetChanged_state this sel :
  (Derived.AnnounceSelectedSetChanged sel this).1 = this.
Proof.
  unfold Derived.AnnounceSelectedSetChanged.
  rewrite inherited_state. by destruct this.
Qed.

Lemma Derived_received_AnnounceActiveLineChanged this l x :
  received l (Derived.AnnounceActiveLineChanged x this).2
  = if decide (l ∈ Base.listeners (base this))
    then [OnActiveLineChanged x] else [].
Proof.
  unfold Derived.AnnounceActiveLineChanged. rewrite inherited_trace.
  apply received_AnnounceActiveLineChanged.
Qed.

Lemma Derived_received_AnnounceSelectedSetChanged this l sel :
  received l (Derived.AnnounceSelectedSetChanged sel this).2
  = if decide (l ∈ Base.listeners (base this))
    then [OnSelectedSetChanged sel] else [].
Proof.
  unfold Derived.AnnounceSelectedSetChanged. rewrite inherited_trace.
  apply received_AnnounceSelectedSetChanged.
Qed.

(** What [move_to] does, for [NextLine] and [PrevLine] alike. *)
Lemma move_to_Some this line :
  let after := move_to (Some line) this in
  after.1 = Derived.mk (base this) line {[line]}
  ∧ ∀ l, received l after.2
         = if decide (l ∈ Base.listeners (base this))
           then [OnActiveLineChanged line; OnSelectedSetChanged [line]]
           else [].
Proof.
  cbn zeta. cbn [move_to]. split.
  - rewrite and_then_state, Derived_AnnounceActiveLineChanged_state.
    apply Derived_AnnounceSelectedSetChanged_state.
  - intros l. rewrite and_then_trace, received_app.
    rewrite Derived_AnnounceActiveLineChanged_state.
    rewrite Derived_received_AnnounceActiveLineChanged.
    rewrite Derived_received_AnnounceSelectedSetChanged.
    cbn [base]. by case_decide.
Qed.

End DerivedFacts.

(** C1: [SetActiveLine x] with [x] the current active line (the null
    pointer for none included) returns the controller as it was and calls
    no listener; with any other [x] it makes [x] the active line, leaves
    the selected set and the listener set alone, and every registered
    listener receives exactly [OnActiveLineChanged x], nobody else
    anything.  In both cases [GetActiveLine] returns [x] afterwards. *)
Theorem SetActiveLine_notifies_iff_changed
    (this : Derived.t) (x : AssDialoguePtr) :
  let after := Derived.SetActiveLine x this in
  Derived.GetActiveLine after.1 = x
  ∧ Derived.selected after.1 = Derived.selected this
  ∧ Derived.base after.1 = Derived.base this
  ∧ if decide (x = Derived.GetActiveLine this)
    then after = (this, [])
    else ∀ l, received l after.2
              = if decide (l ∈ Base.listeners (Derived.base this))
                then [OnActiveLineChanged x] else [].
Proof.
  cbn zeta. unfold Derived.SetActiveLine, Derived.GetActiveLine.
  destruct (decide (x = Derived.active_line this)) as [Hx|Hx].
  - by split_and!.
  - rewrite Derived_AnnounceActiveLineChanged_state. split_and!; try done.
    intros l. by rewrite Derived_received_AnnounceActiveLineChanged.
Qed.

(** C2: after [SetSelectedSet new_selection] the selected set is the
    requested set or the prior set, nothing in between; a call that leaves
    the selected set as it was, because the change was refused or because
    the requested set is the prior set, calls no listener and changes
    nothing at all; a call that changes it sends every registered listener
    exactly [OnSelectedSetChanged new_selection].  The active line and the
    listener set are never touched. *)
Theorem SetSelectedSet_all_or_nothing
    (accepts : Derived.t → SubtitleSelection → bool)
    (this : Derived.t) (new_selection : SubtitleSelection) :
  let after := Derived.SetSelectedSet accepts new_selection this in
  (Derived.selected after.1 = list_to_set new_selection
   ∨ Derived.selected after.1 = Derived.selected this)
  ∧ (Derived.selected after.1 = Derived.selected this → after = (this, []))
  ∧ (accepts this new_selection = false → after = (this, []))
  ∧ (list_to_set new_selection = Derived.selected this → after = (this, []))
  ∧ (Derived.selected after.1 ≠ Derived.selected this →
     ∀ l, received l after.2
          = if decide (l ∈ Base.listeners (Derived.base this))
            then [OnSelectedSetChanged new_selection] else [])
  ∧ Derived.active_line after.1 = Derived.active_line this
  ∧ Derived.base after.1 = Derived.base this.
Proof.
  cbn zeta. unfold Derived.SetSelectedSet.
  destruct (accepts this new_selection); [|by split_and!; auto].
  destruct (decide (list_to_set new_selection = Derived.selected this))
    as [Hsame|Hdiff]; [by split_and!; auto|].
  rewrite Derived_AnnounceSelectedSetChanged_state. cbn [Derived.selected].
  split_and!; try done; auto.
  intros _ l. by rewrite Derived_received_AnnounceSelectedSetChanged.
Qed.

(** C3: [NextLine] (resp. [PrevLine]) with no logical next (resp.
    previous) line returns the controller as it was and calls no listener;
    with a neighbour [line] it makes [line] the active line and [{line}]
    the selected set, keeps the listener set, and every registered listener
    receives exactly one [OnActiveLineChanged line] and one
    [OnSelectedSetChanged [line]], nobody else anything. *)
Theorem NextLine_PrevLine_move
    (next_line prev_line : AssDialoguePtr → option AssDialoguePtr)
    (this : Derived.t) :
  match next_line (Derived.GetActiveLine this) with
  | None => Derived.NextLine next_line this = (this, [])
  | Some line =>
      let after := Derived.NextLine next_line this in
      Derived.GetActiveLine after.1 = line
      ∧ Derived.selected after.1 = {[line]}
      ∧ Derived.base after.1 = Derived.base this
      ∧ ∀ l, received l after.2
             = if decide (l ∈ Base.listeners (Derived.base this))
               then [OnActiveLineChanged line; OnSelectedSetChanged [line]]
               else []
  end
  ∧ match prev_line (Derived.GetActiveLine this) with
    | None => Derived.PrevLine prev_line this = (this, [])
    | Some line =>
        let after := Derived.PrevLine prev_line this in
        Derived.GetActiveLine after.1 = line
        ∧ Derived.selected after.1 = {[line]}
        ∧ Derived.base after.1 = Derived.base this
        ∧ ∀ l, received l after.2
               = if decide (l ∈ Base.listeners (Derived.base this))
                 then [OnActiveLineChanged line; OnSelectedSetChanged [line]]
                 else []
    end.
Proof.
  unfold Derived.NextLine, Derived.PrevLine, Derived.GetActiveLine.
  split.
  - destruct (next_line _) as [line|]; [|done].
    destruct (move_to_Some this line) as [-> Hrecv]. by split_and!.
  - destruct (prev_line _) as [line|]; [|done].
    destruct (move_to_Some this line) as [-> Hrecv]. by split_and!.
Qed.

(** C8: [SetSelectedSet] called with a collection whose elements, as a set,
    are the current selected set, in any order of the elements, calls no
    listener and returns the controller as it was. *)
Theorem SetSelectedSet_same_set_silent
    (accepts : Derived.t → SubtitleSelection → bool)
    (this : Derived.t) (current reordered : SubtitleSelection) :
  list_to_set current = Derived.selected this →
  reordered ≡ₚ current →
  Derived.SetSelectedSet accepts reordered this = (this, []).
Proof.
  intros Hcur Hperm. unfold Derived.SetSelectedSet.
  destruct (accepts this reordered); [|done].
  rewrite decide_True; [done|].
  rewrite <- Hcur. apply leibniz_equiv. by rewrite Hperm.
Qed.

Lemma SetSelectedSet_same_set_silent_witness :
  let this := Derived.mk (Base.mk {[1%N]}) 4 (list_to_set [4%N; 5%N; 6%N]) in
  list_to_set [4%N; 5%N; 6%N] = Derived.selected this
  ∧ [6%N; 4%N; 5%N] ≡ₚ [4%N; 5%N; 6%N]
  ∧ Derived.SetSelectedSet (λ _ _, true) [6%N; 4%N; 5%N] this = (this, []).
Proof.
  assert ([6%N; 4%N; 5%N] ≡ₚ [4%N; 5%N; 6%N]) as Hperm.
  { change [6%N; 4%N; 5%N] with ([6%N] ++ [4%N; 5%N]).
    change [4%N; 5%N; 6%N] with ([4%N; 5%N] ++ [6%N]).
    apply Permutation_app_comm. }
  exact (conj eq_refl (conj Hperm
    (SetSelectedSet_same_set_silent (λ _ _, true)
       (Derived.mk (Base.mk {[1%N]}) 4 (list_to_set [4%N; 5%N; 6%N]))
       [4%N; 5%N; 6%N] [6%N; 4%N; 5%N] eq_refl Hperm))).
Defined.

(** ** Further properties of the base class *)

(** X1: an announcement makes one call per registered listener and no
    other: the trace is as long as the listener set is large, and each of
    its events is the announced callback, with the announced argument, on a
    registered listener. *)
Theorem Announce_calls_only_listeners (this : Base.t)
    (x : AssDialoguePtr) (s : SubtitleSelection) :
  length (Base.AnnounceActiveLineChanged x this).2 = size (Base.listeners this)
  ∧ length (Base.AnnounceSelectedSetChanged s this).2
    = size (Base.listeners this)
  ∧ (∀ e, e ∈ (Base.AnnounceActiveLineChanged x this).2 →
          e.1 ∈ Base.listeners this ∧ e.2 = OnActiveLineChanged x)
  ∧ (∀ e, e ∈ (Base.AnnounceSelectedSetChanged s this).2 →
          e.1 ∈ Base.listeners this ∧ e.2 = OnSelectedSetChanged s).
Proof.
  assert (∀ cb : Callback,
    length ((λ l', (l', cb)) <$> Base.iterate (Base.listeners this))
    = size (Base.listeners this)) as Hlen.
  { intros cb. by rewrite length_fmap, iterate_Permutation. }
  assert (∀ (cb : Callback) (e : N * Callback),
    e ∈ (λ l', (l', cb)) <$> Base.iterate (Base.listeners this) →
    e.1 ∈ Base.listeners this ∧ e.2 = cb) as Hin.
  { intros cb e (l' & -> & Hl')%list_elem_of_fmap.
    by apply elem_of_iterate in Hl'. }
  split_and!; cbn [snd Base.AnnounceActiveLineChanged
                   Base.AnnounceSelectedSetChanged]; auto.
Qed.

(** X3: removing a listener right after adding it restores the listener
    set if the listener was not registered before, and adding a listener
    right after removing it restores the set if it was registered. *)
Theorem Add_Remove_inverse (this : Base.t) (l : ListenerPtr) :
  (l ∉ Base.listeners this →
   (Base.AddSelectionListener l >>> Base.RemoveSelectionListener l) this
   = (this, []))
  ∧ (l ∈ Base.listeners this →
     (Base.RemoveSelectionListener l >>> Base.AddSelectionListener l) this
     = (this, [])).
Proof.
  split; intros Hl; unfold and_then; cbn; f_equal; apply t_eq; cbn.
  - set_solver.
  - apply set_eq. intros l'. rewrite elem_of_union, elem_of_difference,
      elem_of_singleton. destruct (decide (l' = l)); naive_solver.
Qed.

(** ** Sequences of calls on the base class *)

Section BaseSequences.

Import Base.
Implicit Types (this : Base.t) (l : ListenerPtr) (cs : list Call).

(** What one call sends to [l], and whether [l] is registered after it. *)
Lemma call_received c this l :
  received l (call c this).2
  = match announcement c with
    | Some cb => if decide (l ∈ listeners this) then [cb] else []
    | None => []
    end.
Proof.
  destruct c; cbn [call announcement].
  - apply received_AnnounceActiveLineChanged.
  - apply received_AnnounceSelectedSetChanged.
  - done.
  - done.
Qed.

Lemma call_listeners c this l :
  l ∈ listeners (call c this).1
  ↔ match c with
    | CallAddSelectionListener l' => l = l' ∨ l ∈ listeners this
    | CallRemoveSelectionListener l' => l ≠ l' ∧ l ∈ listeners this
    | _ => l ∈ listeners this
    end.
Proof. destruct c; cbn; set_solver. Qed.

End BaseSequences.

(** X4: a listener that is registered, and that none of the following
    calls removes, receives every announcement of those calls, each once,
    in the order the announcements were made, and nothing else; it is
    still registered afterwards. *)
Theorem registered_listener_receives_all
    (this : Base.t) (l : ListenerPtr) (cs : list Base.Call) :
  l ∈ Base.listeners this →
  Base.CallRemoveSelectionListener l ∉ cs →
  received l (Base.calls cs this).2 = omap Base.announcement cs
  ∧ l ∈ Base.listeners (Base.calls cs this).1.
Proof.
  revert this. induction cs as [|c cs IH]; intros this Hl Hcs; [done|].
  apply not_elem_of_cons in Hcs as [Hc Hcs]. cbn [Base.calls].
  rewrite and_then_trace, and_then_state, received_app, call_received.
  assert (l ∈ Base.listeners (Base.call c this).1) as Hl'.
  { apply call_listeners. destruct c as [x|sel|l'|l']; auto.
    split; [congruence | done]. }
  destruct (IH _ Hl' Hcs) as [-> Hfinal]. split; [|done].
  cbn [omap list_omap]. destruct (Base.announcement c); [|done].
  by rewrite decide_True.
Qed.

Lemma registered_listener_receives_all_witness :
  let this := Base.mk {[1%N; 2%N]} in
  let cs := [Base.CallAnnounceActiveLineChanged 7;
             Base.CallRemoveSelectionListener 2;
             Base.CallAnnounceSelectedSetChanged [7%N; 8%N];
             Base.CallAddSelectionListener 1;
             Base.CallAnnounceActiveLineChanged 0] in
  (1%N ∈ Base.listeners this
   ∧ (Base.CallRemoveSelectionListener 1 ∉ cs)
   ∧ received 1 (Base.calls cs this).2
     = [OnActiveLineChanged 7; OnSelectedSetChanged [7%N; 8%N];
        OnActiveLineChanged 0]
   ∧ 1%N ∈ Base.listeners (Base.calls cs this).1).
Proof.
  assert (1%N ∈ Base.listeners (Base.mk {[1%N; 2%N]})) as Hl
    by (cbn; set_solver).
  assert (Base.CallRemoveSelectionListener 1
          ∉ [Base.CallAnnounceActiveLineChanged 7;
             Base.CallRemoveSelectionListener 2;
             Base.CallAnnounceSelectedSetChanged [7%N; 8%N];
             Base.CallAddSelectionListener 1;
             Base.CallAnnounceActiveLineChanged 0]) as Hcs.
  { rewrite !not_elem_of_cons. split_and!; [done..|apply not_elem_of_nil]. }
  exact (conj Hl (conj Hcs
    (registered_listener_receives_all _ 1%N _ Hl Hcs))).
Defined.

(** X5: what a listener receives from a sequence of calls, and whether it
    is registered afterwards, depends on the calls and on whether it was
    registered before, not on which other listeners are registered: two
    controllers that agree on the listener agree on all it receives. *)
Theorem received_independent_of_other_listeners
    (this1 this2 : Base.t) (l : ListenerPtr) (cs : list Base.Call) :
  (l ∈ Base.listeners this1 ↔ l ∈ Base.listeners this2) →
  received l (Base.calls cs this1).2 = received l (Base.calls cs this2).2
  ∧ (l ∈ Base.listeners (Base.calls cs this1).1
     ↔ l ∈ Base.listeners (Base.calls cs this2).1).
Proof.
  revert this1 this2.
  induction cs as [|c cs IH]; intros this1 this2 Hagree; [done|].
  cbn [Base.calls].
  rewrite !and_then_trace, !and_then_state, !received_app, !call_received.
  assert (l ∈ Base.listeners (Base.call c this1).1
          ↔ l ∈ Base.listeners (Base.call c this2).1) as Hagree'.
  { rewrite !call_listeners. destruct c; naive_solver. }
  destruct (IH _ _ Hagree') as [-> Hfinal]. split; [|done].
  f_equal. destruct (Base.announcement c); [|done].
  by apply decide_ext.
Qed.

Lemma received_independent_of_other_listeners_witness :
  let this1 := Base.mk {[1%N; 2%N; 3%N]} in
  let this2 := Base.mk {[1%N; 9%N]} in
  let cs := [Base.CallAnnounceActiveLineChanged 7;
             Base.CallRemoveSelectionListener 1;
             Base.CallAddSelectionListener 3;
             Base.CallAnnounceSelectedSetChanged [7%N]] in
  ((1%N ∈ Base.listeners this1 ↔ 1%N ∈ Base.listeners this2)
   ∧ received 1 (Base.calls cs this1).2 = received 1 (Base.calls cs this2).2
   ∧ (1%N ∈ Base.listeners (Base.calls cs this1).1
      ↔ 1%N ∈ Base.listeners (Base.calls cs this2).1)).
Proof.
  assert (1%N ∈ Base.listeners (Base.mk {[1%N; 2%N; 3%N]})
          ↔ 1%N ∈ Base.listeners (Base.mk {[1%N; 9%N]})) as Hagree
    by (cbn; set_solver).
  exact (conj Hagree
    (received_independent_of_other_listeners _ _ 1%N _ Hagree)).
Defined.


(** X6: two registrations commute, two removals commute, and a
    registration commutes with the removal of another listener; for one
    and the same listener the later call decides: removed after added it
    is not registered, added after removed it is. *)
Theorem Add_Remove_commute (this : Base.t) (l1 l2 : ListenerPtr) :
  (Base.AddSelectionListener l1 >>> Base.AddSelectionListener l2) this
  = (Base.AddSelectionListener l2 >>> Base.AddSelectionListener l1) this
  ∧ (Base.RemoveSelectionListener l1 >>> Base.RemoveSelectionListener l2) this
    = (Base.RemoveSelectionListener l2 >>> Base.RemoveSelectionListener l1) this
  ∧ (l1 ≠ l2 →
     (Base.AddSelectionListener l1 >>> Base.RemoveSelectionListener l2) this
     = (Base.RemoveSelectionListener l2 >>> Base.AddSelectionListener l1) this)
  ∧ (l1 ∉ Base.listeners
            ((Base.AddSelectionListener l1
              >>> Base.RemoveSelectionListener l1) this).1)
  ∧ l1 ∈ Base.listeners
           ((Base.RemoveSelectionListener l1
             >>> Base.AddSelectionListener l1) this).1.
Proof.
  split_and!; [| |intros Hne| |];
    unfold and_then; cbn; try (f_equal; apply t_eq; cbn); set_solver.
Qed.

(** X7: registering the listeners of a list one after the other, in any
    order and with any repetition, registers exactly the listeners of the
    list next to those registered before; removing them one after the other
    leaves those registered before that are not in the list.  Neither makes
    a callback. *)
Theorem Add_Remove_many (this : Base.t) (ls : list ListenerPtr) :
  Base.calls (Base.CallAddSelectionListener <$> ls) this
  = (Base.mk (list_to_set ls ∪ Base.listeners this), [])
  ∧ Base.calls (Base.CallRemoveSelectionListener <$> ls) this
    = (Base.mk (Base.listeners this ∖ list_to_set ls), []).
Proof.
  split; revert this; induction ls as [|l ls IH]; intros this.
  - cbn. f_equal. apply t_eq; cbn. set_solver.
  - rewrite fmap_cons. cbn [Base.calls]. unfold and_then.
    cbn [Base.call Base.AddSelectionListener]. rewrite IH.
    cbn. f_equal. apply t_eq; cbn. set_solver.
  - cbn. f_equal. apply t_eq; cbn. set_solver.
  - rewrite fmap_cons. cbn [Base.calls]. unfold and_then.
    cbn [Base.call Base.RemoveSelectionListener]. rewrite IH.
    cbn. f_equal. apply t_eq; cbn. set_solver.
Qed.

(** A list sorted by [≤] without repetition is sorted by [<]. *)
Lemma Sorted_le_NoDup_lt (ls : list N) :
  Sorted N.le ls → NoDup ls → StronglySorted N.lt ls.
Proof.
  intros Hs Hnd.
  apply Sorted_StronglySorted in Hs; [|intros a b c; apply N.le_trans].
  induction Hs as [|a ls Hs IH Hall]; [constructor|].
  apply NoDup_cons in Hnd as [Ha Hnd]. constructor; [by apply IH|].
  rewrite Forall_forall in Hall |- *. intros b Hb.
  assert (a ≠ b) by (intros ->; by apply Ha, list_elem_of_In).
  specialize (Hall b Hb). lia.
Qed.

(** X8: the callbacks of one announcement go out in strictly ascending
    order of the listeners' addresses, the order of the set, whatever the
    order in which the listeners were registered. *)
Theorem Announce_in_address_order (this : Base.t)
    (x : AssDialoguePtr) (s : SubtitleSelection) :
  StronglySorted N.lt (fst <$> (Base.AnnounceActiveLineChanged x this).2)
  ∧ StronglySorted N.lt (fst <$> (Base.AnnounceSelectedSetChanged s this).2).
Proof.
  assert (∀ cb : Callback,
    StronglySorted N.lt
      (fst <$> ((λ l', (l', cb)) <$> Base.iterate (Base.listeners this))))
    as Hsorted.
  { intros cb.
    assert (∀ ls : list N, fst <$> ((λ l', (l', cb)) <$> ls) = ls) as ->.
    { induction ls as [|l' ls IH]; [done|]. cbn. by f_equal. }
    apply Sorted_le_NoDup_lt; [apply iterate_Sorted | apply NoDup_iterate]. }
  split; apply Hsorted.
Qed.

Section BaseTraceOrigin.

Import Base.
Implicit Types (this : Base.t) (cs : list Call) (e : N * Callback).

(** A callback made by one call goes to a listener registered when the
    call is made, and is the callback the call announces. *)
Lemma call_event c this e :
  e ∈ (call c this).2 →
  e.1 ∈ listeners this ∧ announcement c = Some e.2.
Proof.
  destruct c as [x|sel|l'|l']; cbn; intros He.
  - apply list_elem_of_fmap in He as (l' & -> & Hl').
    by apply elem_of_iterate in Hl'.
  - apply list_elem_of_fmap in He as (l' & -> & Hl').
    by apply elem_of_iterate in Hl'.
  - by apply elem_of_nil in He.
  - by apply elem_of_nil in He.
Qed.

(** An element of a concatenation lies in the first or in the second
    part. *)
Lemma app_eq_middle {A} (l1 l2 tr1 tr2 : list A) (e : A) :
  l1 ++ l2 = tr1 ++ e :: tr2 →
  (∃ after, l1 = tr1 ++ e :: after ∧ tr2 = after ++ l2)
  ∨ (∃ before, tr1 = l1 ++ before ∧ l2 = before ++ e :: tr2).
Proof.
  revert tr1. induction l1 as [|a l1 IH]; intros tr1 Heq.
  - right. by exists tr1.
  - destruct tr1 as [|b tr1]; cbn in Heq; injection Heq as -> Heq.
    + left. by exists l1.
    + destruct (IH _ Heq) as [(after & -> & ->)|(before & -> & ->)].
      * left. by exists after.
      * right. by exists before.
Qed.

End BaseTraceOrigin.

(** X9: a sequence of calls never notifies a listener that is not
    registered at that moment, and never sends a callback that is not being
    announced.  Each callback [e] of the trace of the sequence is made by
    one call [c] of the sequence, at the place of the trace where the
    callbacks of [c] stand: the recipient of [e] is registered in the
    controller as the calls before [c] left it, and [c] announces the
    callback of [e]. *)
Theorem calls_notify_registered_only
    (this : Base.t) (cs : list Base.Call)
    (tr1 tr2 : list (N * Callback)) (e : N * Callback) :
  (Base.calls cs this).2 = tr1 ++ e :: tr2 →
  ∃ (pre post : list Base.Call) (c : Base.Call)
    (before after : list (N * Callback)),
    cs = pre ++ c :: post
    ∧ (Base.call c (Base.calls pre this).1).2 = before ++ e :: after
    ∧ tr1 = (Base.calls pre this).2 ++ before
    ∧ tr2 = after
            ++ (Base.calls post (Base.call c (Base.calls pre this).1).1).2
    ∧ e.1 ∈ Base.listeners (Base.calls pre this).1
    ∧ Base.announcement c = Some e.2.
Proof.
  revert this tr1. induction cs as [|c cs IH]; intros this tr1 Htr.
  { by destruct tr1. }
  cbn [Base.calls] in Htr. rewrite and_then_trace in Htr.
  apply app_eq_middle in Htr as [(after & Hc & ->)|(before & -> & Hrest)].
  - exists [], cs, c, tr1, after. cbn [Base.calls fst snd app].
    assert (e ∈ (Base.call c this).2) as He.
    { rewrite Hc. apply elem_of_app. right. left. }
    apply call_event in He as [Hreg Hcb]. by split_and!.
  - destruct (IH _ _ Hrest)
      as (pre & post & c' & before' & after & -> & Hc' & -> & -> & Hreg & Hcb).
    exists (c :: pre), post, c', before', after.
    cbn [Base.calls app]. rewrite and_then_state, and_then_trace.
    split_and!; try done. by rewrite (assoc_L (++)).
Qed.

Lemma calls_notify_registered_only_witness :
  let this := Base.mk {[1%N; 2%N]} in
  let cs := [Base.CallAnnounceActiveLineChanged 7;
             Base.CallRemoveSelectionListener 1;
             Base.CallAnnounceActiveLineChanged 8] in
  let tr1 := [(1%N, OnActiveLineChanged 7); (2%N, OnActiveLineChanged 7)] in
  let e := (2%N, OnActiveLineChanged 8) in
  ((Base.calls cs this).2 = tr1 ++ e :: []
   ∧ ∃ (pre post : list Base.Call) (c : Base.Call)
       (before after : list (N * Callback)),
       cs = pre ++ c :: post
       ∧ (Base.call c (Base.calls pre this).1).2 = before ++ e :: after
       ∧ tr1 = (Base.calls pre this).2 ++ before
       ∧ [] = after
              ++ (Base.calls post (Base.call c (Base.calls pre this).1).1).2
       ∧ e.1 ∈ Base.listeners (Base.calls pre this).1
       ∧ Base.announcement c = Some e.2).
Proof.
  assert ((Base.calls
             [Base.CallAnnounceActiveLineChanged 7;
              Base.CallRemoveSelectionListener 1;
              Base.CallAnnounceActiveLineChanged 8]
             (Base.mk {[1%N; 2%N]})).2
          = [(1%N, OnActiveLineChanged 7); (2%N, OnActiveLineChanged 7)]
            ++ (2%N, OnActiveLineChanged 8) :: []) as Htr
    by (vm_compute; reflexivity).
  exact (conj Htr (calls_notify_registered_only _ _ _ _ _ Htr)).
Defined.
